(** * flask-app-aws: the module [app.py] and the application it describes

  [app.py] is a single Python module: it imports the [Flask] class, builds
  an application object, registers one view function ([home]) under the
  rule ['/'] and, behind a guard, calls [app.run].

  The development has three layers.
  - [Py]: the fragment of Python's module-level evaluation that the file
    uses (name lookup in globals then builtins, exceptions, line tracking),
    as a state-and-exception monad.
  - [Framework]: the part of the web framework the module calls.  The
    framework is not part of this repository; it is modelled from the
    specification's description of it.
  - [App]: the module itself, statement by statement, in source order. *)

From Stdlib Require Import ZArith Ascii String.
From stdpp Require Import base option list strings gmap.

Open Scope string_scope.

(* ===================================================================== *)
(** ** Values, objects and interpreter state *)
(* ===================================================================== *)

(** Python values that can occur while [app.py] is evaluated. *)
Inductive value : Type :=
| VNone
| VBool (b : bool)
| VStr (s : string)
| VObject (repr : string)
    (* interpreter-provided objects the module never inspects *)
| VBuiltin (name : string)
| VClass (name : string)
| VApp (addr : nat)
    (* reference to an application object in the store *)
| VFunc (name : string) (code : unit → string).
    (* a [def] without parameters whose body returns a [str] *)

(** Exceptions, as the interpreter would report them. *)
Inductive exn : Type :=
| NameError (name : string)
| TypeError (what : string)
| AttributeError (attr : string).

(** One entry of the application's URL map. *)
Record url_rule : Type := UrlRule {
rule : string;
endpoint : string;
methods : list string
}.

(** An application object: what [Flask(import_name)] allocates and what
  [route] mutates. *)
Record flask_app : Type := FlaskApp {
import_name : string;
url_map : list url_rule;
view_functions : gmap string (unit → string)
}.

(** The keyword arguments of an [app.run] call, absent ones as [None],
  together with the application being served. *)
Record server : Type := Server {
srv_app : nat;
srv_host : option string;
srv_port : option Z;
srv_debug : option bool
}.

(** Interpreter state.  [apps] is the object store for application objects
  (an address is an index); [listener] records a server started by
  [app.run]; [os_environ] and [sys_argv] are the process environment and
  command line; [lines] lists the source lines whose execution has begun,
  most recent first. *)
Record state : Type := State {
globals : gmap string value;
apps : list flask_app;
listener : option server;
os_environ : gmap string string;
sys_argv : list string;
lines : list nat
}.

Definition set_globals (g : gmap string value) (st : state) : state :=
State g (apps st) (listener st) (os_environ st) (sys_argv st) (lines st).
Definition set_apps (a : list flask_app) (st : state) : state :=
State (globals st) a (listener st) (os_environ st) (sys_argv st) (lines st).
Definition set_listener (l : option server) (st : state) : state :=
State (globals st) (apps st) l (os_environ st) (sys_argv st) (lines st).
Definition set_lines (l : list nat) (st : state) : state :=
State (globals st) (apps st) (listener st) (os_environ st) (sys_argv st) l.

(** The line being executed: the traceback line of a raised exception. *)
Definition lineno (st : state) : option nat := head (lines st).

(* ===================================================================== *)
(** ** The evaluation monad *)
(* ===================================================================== *)

Module Py.

Inductive outcome (A : Type) : Type :=
  | Ok (a : A)
  | Raised (e : exn).
Arguments Ok {A} a.
Arguments Raised {A} e.

(** A computation threads the interpreter state and may raise. *)
Definition py (A : Type) : Type := state → outcome A * state.

Definition ret {A} (a : A) : py A := λ st, (Ok a, st).
Definition raise {A} (e : exn) : py A := λ st, (Raised e, st).
Definition bind {A B} (m : py A) (k : A → py B) : py B :=
  λ st, match m st with
        | (Ok a, st') => k a st'
        | (Raised e, st') => (Raised e, st')
        end.

Definition get : py state := λ st, (Ok st, st).
Definition modify (f : state → state) : py unit := λ st, (Ok (), f st).

#[global] Instance py_ret : MRet py := @ret.
#[global] Instance py_bind : MBind py := λ A B k m, bind m k.

(** Names of the builtins namespace: the documented built-in functions
    and the constants that are ordinary names. *)
Definition builtin_names : list string :=
  [ "abs"; "aiter"; "all"; "anext"; "any"; "ascii"; "bin"; "bool";
    "breakpoint"; "bytearray"; "bytes"; "callable"; "chr"; "classmethod";
    "compile"; "complex"; "delattr"; "dict"; "dir"; "divmod"; "enumerate";
    "eval"; "exec"; "filter"; "float"; "format"; "frozenset"; "getattr";
    "globals"; "hasattr"; "hash"; "help"; "hex"; "id"; "input"; "int";
    "isinstance"; "issubclass"; "iter"; "len"; "list"; "locals"; "map";
    "max"; "memoryview"; "min"; "next"; "object"; "oct"; "open"; "ord";
    "pow"; "print"; "property"; "range"; "repr"; "reversed"; "round";
    "set"; "setattr"; "slice"; "sorted"; "staticmethod"; "str"; "sum";
    "super"; "tuple"; "type"; "vars"; "zip"; "__import__";
    "__build_class__"; "__debug__"; "__name__"; "__doc__"; "__package__";
    "__loader__"; "__spec__"; "Ellipsis"; "NotImplemented"; "copyright";
    "credits"; "license"; "exit"; "quit" ].

Definition builtins (name : string) : option value :=
  if existsb (String.eqb name) builtin_names then Some (VBuiltin name)
  else None.

(** Statement prologue: execution of source line [n] begins. *)
Definition at_line (n : nat) : py unit :=
  modify (λ st, set_lines (n :: lines st) st).

(** [LOAD_NAME] at module level: globals, then builtins, else
    [NameError]. *)
Definition load_name (name : string) : py value :=
  λ st, match globals st !! name with
        | Some v => (Ok v, st)
        | None =>
            match builtins name with
            | Some v => (Ok v, st)
            | None => (Raised (NameError name), st)
            end
        end.

(** [STORE_NAME] at module level. *)
Definition store_name (name : string) (v : value) : py unit :=
  modify (λ st, set_globals (<[name := v]> (globals st)) st).

(** [v == s] for a string literal [s]: only an equal [str] compares
    equal; every other value in [value] compares by identity and is
    therefore different from the literal. *)
Definition eq_str (v : value) (s : string) : bool :=
  match v with
  | VStr t => String.eqb t s
  | _ => false
  end.

End Py.
Export Py.

(* ===================================================================== *)
(** ** The web framework, as far as [app.py] calls it *)
(* ===================================================================== *)

Module Framework.

Record request : Type := Request {
  method : string;
  path : string;
  query_string : string;
  req_headers : list (string * string);
  req_body : string
}.

Record response : Type := Response {
  status : nat;
  headers : list (string * string);
  body : string
}.

(** Value of the first header called [name], if any. *)
Fixpoint header (name : string) (hs : list (string * string))
  : option string :=
  match hs with
  | [] => None
  | (k, v) :: hs' => if String.eqb k name then Some v else header name hs'
  end.

Definition content_type (r : response) : option string :=
  header "Content-Type" (headers r).

(** Modelled from the spec: the framework's application constructor
    (the [Flask] class is imported, not defined, by [app.py]).  A new
    application has no routes: section 2 describes the server as one
    component whose only route is the one the program registers. *)
Definition Flask (name : string) : flask_app := FlaskApp name [] ∅.

(** Modelled from the spec: the methods of a route registered without a
    [methods] argument.  Section 6 gives the endpoint as [GET /]. *)
Definition default_methods : list string := ["GET"].

(** Modelled from the spec: route registration in the framework
    (Glossary, Route: a mapping from an HTTP method and path pattern to a
    handler).  The endpoint is keyed by the view function's name. *)
Definition add_url_rule (r : string) (name : string)
    (view : unit → string) (a : flask_app) : flask_app :=
  FlaskApp (import_name a)
           (url_map a ++ [UrlRule r name default_methods])
           (<[name := view]> (view_functions a)).

(** Modelled from the spec: the call of the framework's application class
    (not under src/; section 9 speaks of the single server instance it
    creates).  [Flask(arg)]: only the class is callable here, and its
    import name is a [str].  Allocates the application object and returns
    a reference. *)
Definition call (callee arg : value) : py value :=
  match callee with
  | VClass "Flask" =>
      match arg with
      | VStr name =>
          st ← get;
          modify (set_apps (apps st ++ [Flask name]));;
          mret (VApp (length (apps st)))
      | _ => raise (TypeError "import_name must be str")
      end
  | _ => raise (TypeError "object is not callable")
  end.

(** Modelled from the spec: the framework's route decorator (not under
    src/; section 1: the program is route registration; Glossary, Route).
    The module applies it once, to the application line 2 has just created;
    the spec does not say what registering under an endpoint that is
    already taken does, and the module never does so.
    [obj.route(r)]: the decorator.  Applied to a function object it
    registers the function on the application object [obj] refers to (the
    object in the store is updated in place) and returns the function
    unchanged. *)
Definition route (obj : value) (r : string) : py (value → py value) :=
  match obj with
  | VApp addr =>
      mret (λ f : value,
        match f with
        | VFunc name code =>
            st ← get;
            match apps st !! addr with
            | Some a =>
                modify (set_apps (<[addr := add_url_rule r name code a]>
                                    (apps st)));;
                mret f
            | None => raise (AttributeError "route")
            end
        | _ => raise (AttributeError "__name__")
        end)
  | _ => raise (AttributeError "route")
  end.

(** Modelled from the spec: the framework's server start (not under src/;
    section 6: running the program starts the listener in the foreground;
    section 4.1: binds a network port for the process lifetime).  Failures
    of the bind itself are not described by the spec and are not modelled.
    [obj.run(host=..., port=..., debug=...)]: starts the listener for the
    application [obj] refers to.  The call serves requests for as long as
    the process lives; the state records that the listener is up and with
    which arguments. *)
Definition run (obj : value) (host : option string) (port : option Z)
    (debug : option bool) : py unit :=
  match obj with
  | VApp addr => modify (set_listener (Some (Server addr host port debug)))
  | _ => raise (AttributeError "run")
  end.

(** Modelled from the spec: the framework's defaults for the bind
    address (section 4.1: the port is left to the framework default,
    typically 5000). *)
Definition default_host : string := "127.0.0.1".
Definition default_port : Z := 5000.

Definition bind_host (s : server) : string :=
  default default_host (srv_host s).
Definition bind_port (s : server) : Z :=
  default default_port (srv_port s).

(** *** Request dispatch *)

Inductive routing : Type :=
  | Matched (endpoint : string)
  | NotFound
  | MethodNotAllowed.

(** Modelled from the spec: URL matching in the framework (section 4.1:
    unmatched routes fall through to the default error behaviour, 404 for
    unknown paths, 405 for unsupported methods).  A rule without
    variable parts matches exactly its own path; [seen] records that some
    rule matched the path but not the method. *)
Fixpoint url_match (rules : list url_rule) (m p : string) (seen : bool)
  : routing :=
  match rules with
  | [] => if seen then MethodNotAllowed else NotFound
  | r :: rs =>
      if String.eqb (rule r) p then
        if existsb (String.eqb m) (methods r) then Matched (endpoint r)
        else url_match rs m p true
      else url_match rs m p seen
  end.

Definition html : list (string * string) :=
  [("Content-Type", "text/html; charset=utf-8")].

(** Modelled from the spec: the framework's conversion of a view's [str]
    return value into a response (section 4.1: HTTP 200,
    Content-Type text/html, body the returned string). *)
Definition make_response (rv : string) : response := Response 200 html rv.

(** Modelled from the spec: the framework's generic error pages
    (section 7: an unmatched route yields a generic not-found page; section
    4.1: 404 for unknown paths, 405 for unsupported methods). *)
Definition error_page (title heading text : string) : string :=
  String.concat (String (Ascii.ascii_of_nat 10) "")
    [ "<!doctype html>"; "<html lang=en>";
      "<title>" +:+ title +:+ "</title>";
      "<h1>" +:+ heading +:+ "</h1>";
      "<p>" +:+ text +:+ "</p>"; "" ].

Definition not_found : response :=
  Response 404 html
    (error_page "404 Not Found" "Not Found"
       "The requested URL was not found on the server.").

Definition method_not_allowed : response :=
  Response 405 html
    (error_page "405 Method Not Allowed" "Method Not Allowed"
       "The method is not allowed for the requested URL.").

Definition internal_server_error : response :=
  Response 500 html
    (error_page "500 Internal Server Error" "Internal Server Error"
       "The server encountered an internal error.").

(** Modelled from the spec: the framework's request dispatch (Glossary,
    Handler: the unit of logic invoked to produce a response for a matched
    route).  The view is called without arguments: the rule has no
    variable parts. *)
Definition dispatch (a : flask_app) (req : request) : response :=
  match url_match (url_map a) (method req) (path req) false with
  | Matched e =>
      match view_functions a !! e with
      | Some view => make_response (view ())
      | None => internal_server_error
      end
  | NotFound => not_found
  | MethodNotAllowed => method_not_allowed
  end.

End Framework.
Export Framework.

(* ===================================================================== *)
(** ** [app.py] *)
(* ===================================================================== *)

Module App.

(** Lines 4-15: [def home()], whose body returns the triple-quoted
    literal of lines 5-15, first and last line breaks included. *)
Definition home (_ : unit) : string :=
  "
    <html>
      <head>
        <title>Hello, Flask!</title>
      </head>
      <body>
        <h1>Hello, World!</h1>
        <p>Welcome to your Flask-powered webpage!</p>
      </body>
    </html>
    ".

(** Line 1: [from flask import Flask].  The framework is taken to be
    installed: the import succeeds and binds the class.  An interpreter
    without the framework fails here instead; that case is not modelled. *)
Definition import_flask : py unit :=
  at_line 1;;
  store_name "Flask" (VClass "Flask").

(** Line 2: [app = Flask(_name_)]. *)
Definition create_app : py unit :=
  at_line 2;;
  f ← load_name "Flask";
  n ← load_name "_name_";
  a ← call f n;
  store_name "app" a.

(** Lines 3-15: [@app.route('/')] over [def home()].  The decorator
    expression is evaluated first, then the function object is built,
    the decorator is applied to it and the result is bound to [home]. *)
Definition def_home : py unit :=
  at_line 3;;
  a ← load_name "app";
  deco ← route a "/";
  h ← deco (VFunc "home" home);
  store_name "home" h.

(** Lines 17-18: [if _name_ == '_main_': app.run(debug=True,
    host='0.0.0.0')]. *)
Definition main_guard : py unit :=
  at_line 17;;
  n ← load_name "_name_";
  if eq_str n "_main_" then
    at_line 18;;
    a ← load_name "app";
    run a (Some "0.0.0.0") None (Some true)
  else mret ().

(** The module body, in source order. *)
Definition module : py unit :=
  import_flask;; create_app;; def_home;; main_guard.

(** The interpreter's state when it starts evaluating a module whose
    global namespace is [g]. *)
Definition start (g : gmap string value) (env : gmap string string)
    (argv : list string) : state :=
  State g [] None env argv [].

(** The global namespace of [python app.py]: the module is [__main__]. *)
Definition main_globals : gmap string value :=
  <["__name__" := VStr "__main__"]>
  (<["__doc__" := VNone]>
  (<["__package__" := VNone]>
  (<["__loader__" := VObject "SourceFileLoader"]>
  (<["__spec__" := VNone]>
  (<["__annotations__" := VObject "dict"]>
  (<["__builtins__" := VObject "module builtins"]>
  (<["__file__" := VStr "app.py"]>
  (<["__cached__" := VNone]> ∅)))))))).

(** The global namespace when the module is imported as [app]. *)
Definition import_globals : gmap string value :=
  <["__name__" := VStr "app"]>
  (<["__doc__" := VNone]>
  (<["__package__" := VStr ""]>
  (<["__loader__" := VObject "SourceFileLoader"]>
  (<["__spec__" := VObject "ModuleSpec"]>
  (<["__builtins__" := VObject "dict"]>
  (<["__file__" := VStr "app.py"]>
  (<["__cached__" := VStr "__pycache__/app.pyc"]> ∅))))))).

(** [python app.py], with any environment and command line. *)
Definition run_directly (env : gmap string string) (argv : list string)
  : Py.outcome unit * state :=
  module (start main_globals env argv).

(** The response of the application bound to the global [app] (what a
    server hosting the module's [app] answers), if there is one. *)
Definition respond (st : state) (req : request) : option response :=
  match globals st !! "app" with
  | Some (VApp addr) => a ← apps st !! addr; Some (dispatch a req)
  | _ => None
  end.

End App.
Export App.

(* ===================================================================== *)
(** ** Text predicates for statements about bodies and headers *)
(* ===================================================================== *)

Module Text.

(** Whitespace in the sense of [str.strip()], for the ASCII range. *)
Definition is_space (c : Ascii.ascii) : bool :=
  let n := Ascii.nat_of_ascii c in
  ((9 <=? n)%nat && (n <=? 13)%nat) || ((28 <=? n)%nat && (n <=? 32)%nat).

Fixpoint lstrip (s : string) : string :=
  match s with
  | String c s' => if is_space c then lstrip s' else s
  | EmptyString => EmptyString
  end.

Fixpoint rstrip (s : string) : string :=
  match s with
  | EmptyString => EmptyString
  | String c s' =>
      match rstrip s' with
      | EmptyString => if is_space c then EmptyString else String c EmptyString
      | t => String c t
      end
  end.

(** The string without its leading and trailing whitespace. *)
Definition strip (s : string) : string := rstrip (lstrip s).

Fixpoint all_space (s : string) : bool :=
  match s with
  | EmptyString => true
  | String c s' => is_space c && all_space s'
  end.

(** [needle] occurs in [hay] as a contiguous substring. *)
Definition occurs_in (needle hay : string) : Prop :=
  ∃ pre post, hay = pre +:+ needle +:+ post.

(** Decision procedure for [occurs_in]: try every suffix of [hay]. *)
Fixpoint contains (needle hay : string) : bool :=
  String.prefix needle hay ||
  match hay with
  | EmptyString => false
  | String _ hay' => contains needle hay'
  end.

(** The media type of a Content-Type value: the part before the first
    [;], where the parameters (such as the charset) begin. *)
Fixpoint media_type (ct : string) : string :=
  match ct with
  | EmptyString => EmptyString
  | String c ct' =>
      if Ascii.eqb c ";"%char then EmptyString else String c (media_type ct')
  end.

End Text.
Export Text.

(* ===================================================================== *)
(** ** What the module builds *)
(* ===================================================================== *)

(** The application object the module builds when [_name_] is bound to the
    string [n]: a fresh application with [home] registered under ['/']. *)
Definition built_app (n : string) : flask_app :=
  add_url_rule "/" "home" home (Flask n).

(** The namespace after the three definitions of the module. *)
Definition defined (g : gmap string value) : gmap string value :=
  <["home" := VFunc "home" home]>
    (<["app" := VApp 0]> (<["Flask" := VClass "Flask"]> g)).

(* ===================================================================== *)
(** ** Example inputs *)
(* ===================================================================== *)

(** The direct-run namespace with [_name_] supplied as ['_main_'], as
    [runpy.run_path('app.py', init_globals={'_name_': '_main_'},
    run_name='__main__')] provides it: the module's evaluation completes and
    the guard holds. *)
Definition supplied_globals : gmap string value :=
  <["_name_" := VStr "_main_"]> main_globals.

(** The import namespace with [_name_] supplied as the module's name: the
    evaluation completes and the guard does not hold. *)
Definition supplied_import_globals : gmap string value :=
  <["_name_" := VStr "app"]> import_globals.

Definition get_root : request := Request "GET" "/" "" [] "".
Definition get_root_extras : request :=
  Request "GET" "/" "lang=en" [("Accept", "*/*"); ("Cookie", "k=v")] "ignored".
Definition get_about : request := Request "GET" "/about" "" [] "".
Definition post_root : request := Request "POST" "/" "" [] "x=1".

(** A state in which line 2 has built an application and lines 3-15 have
    registered [home], as the guard on line 17 would find it under a direct
    run. *)
Definition before_guard : state :=
  State (defined main_globals) [built_app "app"] None ∅ [] [3; 2; 1].

(** A state that already holds an application object which [app] and a
    second name refer to, with [_name_] supplied: what a second evaluation
    of the module (a reload) or an embedding program would start from. *)
Definition populated : state :=
  State (<["_name_" := VStr "_main_"]>
           (<["app" := VApp 0]> (<["application" := VApp 0]> main_globals)))
        [Flask "old"] None ∅ ["app.py"] [].

(** The guard's state under a direct run, had [_name_] been supplied. *)
Definition before_guard_supplied : state :=
  State (defined supplied_globals) [built_app "_main_"] None ∅ [] [3; 2; 1].

(* ===================================================================== *)
(** ** Evaluation lemmas, one per statement of the module *)
(* ===================================================================== *)

Section Statements.

Variable st : state.

Lemma import_flask_run :
  import_flask st =
    (Ok (), State (<["Flask" := VClass "Flask"]> (globals st)) (apps st)
                  (listener st) (os_environ st) (sys_argv st)
                  (1 :: lines st)).
Proof. reflexivity. Qed.

Lemma builtins_name : builtins "_name_" = None.
Proof. reflexivity. Qed.

(** Line 2 with [_name_] unbound: the lookup of [Flask] succeeds, the
    lookup of [_name_] raises, and nothing is allocated or stored. *)
Lemma create_app_unbound f :
  globals st !! "Flask" = Some f →
  globals st !! "_name_" = None →
  create_app st =
    (Raised (NameError "_name_"), set_lines (2 :: lines st) st).
Proof.
  intros Hf Hn.
  cbv [create_app mbind py_bind bind at_line modify load_name set_lines
       globals].
  destruct st as [g a l e v ls]; simpl in *.
  rewrite Hf, Hn. reflexivity.
Qed.

End Statements.

Ltac unfold_py :=
  cbv [module import_flask create_app def_home main_guard call route run
       mbind mret py_bind py_ret bind ret raise get modify at_line
       load_name store_name set_lines set_globals set_apps set_listener
       start globals apps listener os_environ sys_argv lines].

(** Every evaluation of the module, by what the initial namespace holds
    for [_name_]. *)
Lemma module_cases (g : gmap string value) env argv :
  module (start g env argv) =
    match g !! "_name_" with
    | None =>
        (Raised (NameError "_name_"),
         State (<["Flask" := VClass "Flask"]> g) [] None env argv [2; 1])
    | Some (VStr n) =>
        (Ok (),
         if String.eqb n "_main_" then
           State (defined g) [built_app n]
                 (Some (Server 0 (Some "0.0.0.0") None (Some true)))
                 env argv [18; 17; 3; 2; 1]
         else
           State (defined g) [built_app n] None env argv [17; 3; 2; 1])
    | Some _ =>
        (Raised (TypeError "import_name must be str"),
         State (<["Flask" := VClass "Flask"]> g) [] None env argv [2; 1])
    end.
Proof.
  unfold_py.
  rewrite lookup_insert_eq.
  rewrite lookup_insert_ne by done.
  destruct (g !! "_name_") as [v|] eqn:Hn.
  - destruct v; try reflexivity.
    cbn [length app].
    rewrite lookup_insert_eq. cbn.
    rewrite !lookup_insert_ne by done. rewrite Hn.
    unfold eq_str. destruct (String.eqb s "_main_").
    + rewrite lookup_insert_ne by done. rewrite lookup_insert_eq. reflexivity.
    + reflexivity.
  - rewrite builtins_name. reflexivity.
Qed.

(* ===================================================================== *)
(** ** The application object: dispatch on the built application *)
(* ===================================================================== *)

Section Dispatch.

Variable n : string.
Variable req : request.

Lemma built_app_rules :
  url_map (built_app n) = [UrlRule "/" "home" ["GET"]].
Proof. reflexivity. Qed.

Lemma built_app_view : view_functions (built_app n) !! "home" = Some home.
Proof. unfold built_app, add_url_rule; cbn. apply lookup_insert_eq. Qed.

Lemma dispatch_root_get :
  method req = "GET" → path req = "/" →
  dispatch (built_app n) req = make_response (home ()).
Proof.
  intros Hm Hp. unfold dispatch.
  rewrite built_app_rules.
  rewrite Hm, Hp.
  change (url_match _ _ _ _) with (Matched "home").
  cbv beta iota. rewrite built_app_view. reflexivity.
Qed.

Lemma dispatch_other_path :
  path req ≠ "/" → dispatch (built_app n) req = not_found.
Proof.
  intros Hp. unfold dispatch.
  rewrite built_app_rules; cbn [url_match rule methods endpoint].
  assert (String.eqb "/" (path req) = false) as ->; [|reflexivity].
  apply String.eqb_neq. congruence.
Qed.

Lemma dispatch_other_method :
  path req = "/" → method req ≠ "GET" →
  dispatch (built_app n) req = method_not_allowed.
Proof.
  intros Hp Hm. unfold dispatch.
  rewrite built_app_rules; cbn [url_match rule methods endpoint existsb].
  rewrite Hp; cbn.
  assert (String.eqb (method req) "GET" = false) as ->; [|reflexivity].
  by apply String.eqb_neq.
Qed.

End Dispatch.

(** What the module's application answers: there is an answer exactly when
    [_name_] was bound to a string, and it is the built application's. *)
Lemma respond_evaluated (g : gmap string value) env argv req resp :
  respond (module (start g env argv)).2 req = Some resp →
  ∃ n, g !! "_name_" = Some (VStr n) ∧ resp = dispatch (built_app n) req.
Proof.
  rewrite module_cases. unfold respond.
  destruct (g !! "_name_") as [v|] eqn:Hn.
  - destruct v; cbn [snd globals apps].
    3: { intros H. exists s. split; [done|].
         destruct (String.eqb s "_main_"); cbn [globals apps] in H;
           unfold defined in H;
           rewrite lookup_insert_ne, lookup_insert_eq in H by done;
           cbn in H; congruence. }
    all: by destruct (_ !! "app") as [[]|].
  - cbn [snd globals apps].
    by destruct (_ !! "app") as [[]|].
Qed.

Lemma completed_evaluated (g : gmap string value) env argv req :
  (module (start g env argv)).1 = Ok () →
  ∃ n, g !! "_name_" = Some (VStr n) ∧
       respond (module (start g env argv)).2 req
         = Some (dispatch (built_app n) req).
Proof.
  rewrite module_cases.
  destruct (g !! "_name_") as [v|] eqn:Hn; [destruct v|]; try done.
  intros _. exists s. split; [done|].
  unfold respond. cbn [snd].
  destruct (String.eqb s "_main_"); cbn [globals apps]; unfold defined;
    rewrite lookup_insert_ne, lookup_insert_eq by done; reflexivity.
Qed.

(* ===================================================================== *)
(** ** Text lemmas *)
(* ===================================================================== *)

Lemma prefix_app (p s : string) :
  String.prefix p s = true → ∃ post, s = p +:+ post.
Proof.
  revert s. induction p as [|c p IH]; intros s H.
  - by exists s.
  - destruct s as [|d s]; [discriminate|]. simpl in H.
    destruct (ascii_dec c d) as [->|]; [|discriminate].
    destruct (IH _ H) as [post ->]. by exists post.
Qed.

Lemma contains_sound (needle hay : string) :
  contains needle hay = true → occurs_in needle hay.
Proof.
  induction hay as [|c hay IH]; intros H.
  - cbn [contains] in H. rewrite orb_false_r in H.
    destruct (prefix_app _ _ H) as [post E]. by exists "", post.
  - cbn [contains] in H. apply orb_true_iff in H as [H|H].
    + destruct (prefix_app _ _ H) as [post E]. by exists "", post.
    + destruct (IH H) as (pre & post & ->). by exists (String c pre), post.
Qed.

Lemma lstrip_decompose (s : string) :
  ∃ l, s = l +:+ lstrip s ∧ all_space l = true.
Proof.
  induction s as [|c s (l & E & Hl)].
  - by exists "".
  - simpl. destruct (is_space c) eqn:Hc.
    + exists (String c l). split.
      * rewrite E at 1. reflexivity.
      * simpl. by rewrite Hc, Hl.
    + by exists "".
Qed.

Lemma rstrip_decompose (s : string) :
  ∃ r, s = rstrip s +:+ r ∧ all_space r = true.
Proof.
  induction s as [|c s (r & E & Hr)].
  - by exists "".
  - simpl. destruct (rstrip s) as [|d t] eqn:Ht.
    + change (s = r) in E. subst r. destruct (is_space c) eqn:Hc.
      * exists (String c s). split; [reflexivity|]. simpl. by rewrite Hc, Hr.
      * by exists s.
    + exists r. split; [|done]. rewrite E at 1. reflexivity.
Qed.

(** [strip] removes a whitespace prefix and a whitespace suffix, nothing
    else. *)
Lemma strip_decompose (s : string) :
  ∃ l r, s = l +:+ strip s +:+ r ∧ all_space l = true ∧ all_space r = true.
Proof.
  destruct (lstrip_decompose s) as (l & El & Hl).
  destruct (rstrip_decompose (lstrip s)) as (r & Er & Hr).
  exists l, r. unfold strip. by rewrite <- Er.
Qed.

(* ===================================================================== *)
(** ** Properties of the module *)
(* ===================================================================== *)

(** C1: what a request with method GET and path ['/'] gets from the module
    as written.  Run directly or imported, the module stops on line 2
    before any application object exists, so no request, GET ['/']
    included, is answered: there is no response with status 200 and the
    body of [home]. *)
Theorem real_run_answers_nothing env argv req :
  respond (run_directly env argv).2 req = None ∧
  respond (module (start import_globals env argv)).2 req = None ∧
  apps (run_directly env argv).2 = [] ∧
  apps (module (start import_globals env argv)).2 = [].
Proof.
  unfold run_directly. rewrite !module_cases.
  change (main_globals !! "_name_") with (@None value).
  change (import_globals !! "_name_") with (@None value).
  cbn [snd apps]. unfold respond; cbn [globals apps].
  repeat split; by destruct (_ !! "app") as [[]|].
Qed.

(** Had [_name_] been supplied, so that the evaluation completes: for every
    request with method GET and path ['/'], the response of the application
    the module builds has status 200 and its body is the string returned by
    [home]. *)
Lemma root_get_ok (g : gmap string value) env argv req :
  (module (start g env argv)).1 = Ok () →
  method req = "GET" → path req = "/" →
  ∃ resp, respond (module (start g env argv)).2 req = Some resp ∧
          status resp = 200 ∧ body resp = home ().
Proof.
  intros Hok Hm Hp.
  destruct (completed_evaluated g env argv req Hok) as (n & _ & ->).
  rewrite dispatch_root_get by done. by eexists.
Qed.

Lemma root_get_ok_witness :
  (module (start supplied_globals ∅ [])).1 = Ok () ∧
  method get_root = "GET" ∧ path get_root = "/" ∧
  ∃ resp, respond (module (start supplied_globals ∅ [])).2 get_root
            = Some resp ∧
          status resp = 200 ∧ body resp = home ().
Proof.
  split; [vm_compute; reflexivity|].
  split; [reflexivity|]. split; [reflexivity|].
  apply (root_get_ok supplied_globals ∅ [] get_root);
    [vm_compute; reflexivity | reflexivity | reflexivity].
Defined.

(** C2: the string [home] returns, stripped of leading and trailing
    whitespace, contains "Hello, Flask!" (inside the title element),
    "Hello, World!" and "<h1>Hello, World!</h1>"; but the module as written,
    run directly or imported, produces no response body for any request,
    GET ['/'] included, so no body with these substrings is ever sent. *)
Theorem real_run_sends_no_body env argv req :
  body <$> respond (run_directly env argv).2 req = None ∧
  body <$> respond (module (start import_globals env argv)).2 req = None ∧
  occurs_in "Hello, Flask!" (strip (home ())) ∧
  occurs_in "<title>Hello, Flask!</title>" (strip (home ())) ∧
  occurs_in "Hello, World!" (strip (home ())) ∧
  occurs_in "<h1>Hello, World!</h1>" (strip (home ())).
Proof.
  unfold run_directly. rewrite !module_cases.
  change (main_globals !! "_name_") with (@None value).
  change (import_globals !! "_name_") with (@None value).
  cbn [snd]. unfold respond; cbn [globals apps].
  split; [by destruct (_ !! "app") as [[]|]|].
  split; [by destruct (_ !! "app") as [[]|]|].
  repeat split; apply contains_sound; vm_compute; reflexivity.
Qed.

(** Had [_name_] been supplied: the body of the response to GET ['/'],
    stripped of leading and trailing whitespace, contains the four
    substrings. *)
Lemma root_body_contents (g : gmap string value) env argv req resp :
  respond (module (start g env argv)).2 req = Some resp →
  method req = "GET" → path req = "/" →
  occurs_in "Hello, Flask!" (strip (body resp)) ∧
  occurs_in "<title>Hello, Flask!</title>" (strip (body resp)) ∧
  occurs_in "Hello, World!" (strip (body resp)) ∧
  occurs_in "<h1>Hello, World!</h1>" (strip (body resp)).
Proof.
  intros Hr Hm Hp.
  destruct (respond_evaluated g env argv req resp Hr) as (n & _ & ->).
  rewrite dispatch_root_get by done.
  repeat split; apply contains_sound; vm_compute; reflexivity.
Qed.

Lemma root_body_contents_witness :
  respond (module (start supplied_globals ∅ [])).2 get_root
    = Some (make_response (home ())) ∧
  method get_root = "GET" ∧ path get_root = "/" ∧
  occurs_in "Hello, Flask!" (strip (home ())) ∧
  occurs_in "<title>Hello, Flask!</title>" (strip (home ())) ∧
  occurs_in "Hello, World!" (strip (home ())) ∧
  occurs_in "<h1>Hello, World!</h1>" (strip (home ())).
Proof.
  split; [vm_compute; reflexivity|].
  split; [reflexivity|]. split; [reflexivity|].
  apply (root_body_contents supplied_globals ∅ [] get_root
           (make_response (home ())));
    [vm_compute; reflexivity | reflexivity | reflexivity].
Defined.

(** C3: the module as written, run directly or imported, answers no
    request, so no response to GET ['/'] carries a Content-Type header; the
    framework's conversion of the string [home] returns would carry one
    with media type text/html. *)
Theorem real_run_sends_no_content_type env argv req :
  respond (run_directly env argv).2 req ≫= content_type = None ∧
  respond (module (start import_globals env argv)).2 req ≫= content_type
    = None ∧
  media_type <$> content_type (make_response (home ())) = Some "text/html".
Proof.
  unfold run_directly. rewrite !module_cases.
  change (main_globals !! "_name_") with (@None value).
  change (import_globals !! "_name_") with (@None value).
  cbn [snd]. unfold respond; cbn [globals apps].
  repeat split; by destruct (_ !! "app") as [[]|].
Qed.

(** Had [_name_] been supplied: for every request with method GET and path
    ['/'], the response carries a Content-Type header whose media type is
    text/html (the value is text/html with a charset parameter). *)
Lemma root_content_type (g : gmap string value) env argv req resp :
  respond (module (start g env argv)).2 req = Some resp →
  method req = "GET" → path req = "/" →
  ∃ ct, content_type resp = Some ct ∧ media_type ct = "text/html".
Proof.
  intros Hr Hm Hp.
  destruct (respond_evaluated g env argv req resp Hr) as (n & _ & ->).
  rewrite dispatch_root_get by done.
  exists "text/html; charset=utf-8". split; reflexivity.
Qed.

Lemma root_content_type_witness :
  respond (module (start supplied_globals ∅ [])).2 get_root
    = Some (make_response (home ())) ∧
  method get_root = "GET" ∧ path get_root = "/" ∧
  ∃ ct, content_type (make_response (home ())) = Some ct ∧
        media_type ct = "text/html".
Proof.
  split; [vm_compute; reflexivity|].
  split; [reflexivity|]. split; [reflexivity|].
  apply (root_content_type supplied_globals ∅ [] get_root
           (make_response (home ())));
    [vm_compute; reflexivity | reflexivity | reflexivity].
Defined.

(** C4: what [python app.py] does, for every environment and command line:
    evaluation stops with [NameError] for [_name_] on line 2 and no
    listener has been started; neither the environment nor the command
    line is consulted or changed on the way. *)
Theorem direct_run_no_listener env argv :
  (run_directly env argv).1 = Raised (NameError "_name_") ∧
  lineno (run_directly env argv).2 = Some 2 ∧
  listener (run_directly env argv).2 = None ∧
  os_environ (run_directly env argv).2 = env ∧
  sys_argv (run_directly env argv).2 = argv.
Proof.
  unfold run_directly. rewrite module_cases.
  change (main_globals !! "_name_") with (@None value).
  repeat split.
Qed.

(** C5: the guard on line 17 reads [_name_] and compares it with
    ['_main_'].  Unless [_name_] is bound to exactly that string, the
    guarded block does not run: line 18 is not reached and no listener is
    started.  Under a direct run the interpreter binds [__name__] to
    ['__main__'] and nothing binds [_name_], so the block is skipped. *)
Theorem misnamed_guard_skips_startup (st : state) :
  globals st !! "_name_" ≠ Some (VStr "_main_") →
  listener (main_guard st).2 = listener st ∧
  lines (main_guard st).2 = 17 :: lines st ∧
  apps (main_guard st).2 = apps st.
Proof.
  intros Hn. destruct st as [g a l e v ls]. unfold_py. cbn in Hn.
  destruct (g !! "_name_") as [x|] eqn:Hx.
  - destruct x; try done.
    unfold eq_str. destruct (String.eqb s "_main_") eqn:Hs; [|done].
    apply String.eqb_eq in Hs. congruence.
  - by rewrite builtins_name.
Qed.

Lemma misnamed_guard_skips_startup_witness :
  globals before_guard !! "_name_" ≠ Some (VStr "_main_") ∧
  listener (main_guard before_guard).2 = listener before_guard ∧
  lines (main_guard before_guard).2 = 17 :: lines before_guard ∧
  apps (main_guard before_guard).2 = apps before_guard.
Proof.
  assert (globals before_guard !! "_name_" ≠ Some (VStr "_main_")) as H
    by (vm_compute; discriminate).
  split; [exact H|].
  exact (misnamed_guard_skips_startup before_guard H).
Defined.

(** C6: evaluating the module in a namespace that does not bind [_name_]
    raises [NameError] for [_name_] on line 2.  Lines 3 and 17 are never
    reached, no application object exists, nothing but [Flask] has been
    bound, no listener is started and no request can be answered. *)
Theorem module_raises_name_error (g : gmap string value) env argv :
  g !! "_name_" = None →
  (module (start g env argv)).1 = Raised (NameError "_name_") ∧
  lineno (module (start g env argv)).2 = Some 2 ∧
  lines (module (start g env argv)).2 = [2; 1] ∧
  apps (module (start g env argv)).2 = [] ∧
  globals (module (start g env argv)).2 = <["Flask" := VClass "Flask"]> g ∧
  listener (module (start g env argv)).2 = None ∧
  ∀ req, respond (module (start g env argv)).2 req = None.
Proof.
  intros Hn. rewrite module_cases, Hn. repeat split.
  intros req. unfold respond. cbn [snd globals apps].
  by destruct (_ !! "app") as [[]|].
Qed.

Lemma module_raises_name_error_witness :
  main_globals !! "_name_" = None ∧
  (module (start main_globals ∅ [])).1 = Raised (NameError "_name_") ∧
  lineno (module (start main_globals ∅ [])).2 = Some 2 ∧
  lines (module (start main_globals ∅ [])).2 = [2; 1] ∧
  apps (module (start main_globals ∅ [])).2 = [] ∧
  globals (module (start main_globals ∅ [])).2
    = <["Flask" := VClass "Flask"]> main_globals ∧
  listener (module (start main_globals ∅ [])).2 = None ∧
  ∀ req, respond (module (start main_globals ∅ [])).2 req = None.
Proof.
  split; [vm_compute; reflexivity|].
  apply (module_raises_name_error main_globals ∅ []).
  vm_compute; reflexivity.
Defined.

(** The same holds when the module is imported rather than run. *)
Lemma import_raises_name_error env argv :
  (module (start import_globals env argv)).1 = Raised (NameError "_name_").
Proof.
  rewrite module_cases.
  by change (import_globals !! "_name_") with (@None value).
Qed.

(** C7: for every request to a path other than ['/'], the response is the
    framework's not-found fallback (status 404) and its body is not the
    body returned by [home]; ['/'] is the only rule in the application's URL
    map. *)
Theorem other_path_not_found (g : gmap string value) env argv req resp :
  respond (module (start g env argv)).2 req = Some resp →
  path req ≠ "/" →
  resp = not_found ∧ status resp = 404 ∧ body resp ≠ home () ∧
  ∀ a, a ∈ apps (module (start g env argv)).2 → rule <$> url_map a = ["/"].
Proof.
  intros Hr Hp.
  destruct (respond_evaluated g env argv req resp Hr) as (n & Hn & ->).
  rewrite dispatch_other_path by done.
  repeat split; [by vm_compute|].
  intros a. rewrite module_cases, Hn. cbn [snd].
  destruct (String.eqb n "_main_"); cbn [apps];
    intros ->%list_elem_of_singleton; reflexivity.
Qed.

Lemma other_path_not_found_witness :
  respond (module (start supplied_globals ∅ [])).2 get_about
    = Some not_found ∧
  path get_about ≠ "/" ∧
  not_found = not_found ∧ status not_found = 404 ∧
  body not_found ≠ home () ∧
  ∀ a, a ∈ apps (module (start supplied_globals ∅ [])).2 →
       rule <$> url_map a = ["/"].
Proof.
  assert (path get_about ≠ "/") as Hp by (vm_compute; discriminate).
  split; [vm_compute; reflexivity|].
  split; [exact Hp|].
  apply (other_path_not_found supplied_globals ∅ [] get_about not_found);
    [vm_compute; reflexivity | exact Hp].
Defined.

(** C8: for every request to ['/'] whose method is not GET, the response
    is the framework's rejection (status 405); it is not a 200 response
    with the body returned by [home]. *)
Theorem other_method_rejected (g : gmap string value) env argv req resp :
  respond (module (start g env argv)).2 req = Some resp →
  path req = "/" → method req ≠ "GET" →
  resp = method_not_allowed ∧ status resp = 405 ∧
  ¬ (status resp = 200 ∧ body resp = home ()).
Proof.
  intros Hr Hp Hm.
  destruct (respond_evaluated g env argv req resp Hr) as (n & _ & ->).
  rewrite dispatch_other_method by done.
  repeat split. intros [H _]. discriminate H.
Qed.

Lemma other_method_rejected_witness :
  respond (module (start supplied_globals ∅ [])).2 post_root
    = Some method_not_allowed ∧
  path post_root = "/" ∧ method post_root ≠ "GET" ∧
  method_not_allowed = method_not_allowed ∧
  status method_not_allowed = 405 ∧
  ¬ (status method_not_allowed = 200 ∧ body method_not_allowed = home ()).
Proof.
  assert (method post_root ≠ "GET") as Hm by (vm_compute; discriminate).
  split; [vm_compute; reflexivity|].
  split; [reflexivity|]. split; [exact Hm|].
  apply (other_method_rejected supplied_globals ∅ [] post_root
           method_not_allowed);
    [vm_compute; reflexivity | reflexivity | exact Hm].
Defined.

(** C9: the module as written binds no socket.  Run directly or imported,
    with any environment and command line, it stops on line 2: line 18,
    whose [app.run] call carries the host ['0.0.0.0'], is never begun and
    no listener exists, on host 0.0.0.0 or any other. *)
Theorem real_run_binds_no_socket env argv :
  listener (run_directly env argv).2 = None ∧
  listener (module (start import_globals env argv)).2 = None ∧
  (18 ∉ lines (run_directly env argv).2) ∧
  (18 ∉ lines (module (start import_globals env argv)).2).
Proof.
  unfold run_directly. rewrite !module_cases.
  change (main_globals !! "_name_") with (@None value).
  change (import_globals !! "_name_") with (@None value).
  cbn [snd listener lines].
  assert (18 ∉ [2; 1]) as H18.
  { rewrite !not_elem_of_cons.
    repeat split; [lia | lia | apply not_elem_of_nil]. }
  repeat split; done.
Qed.

(** Had [_name_] been supplied as ['_main_']: whenever the module starts a
    listener, [app.run] was called with host ['0.0.0.0'] and without a
    port, so the socket is bound to host 0.0.0.0 and the framework's
    default port; the listener is the same whatever the process
    environment and command line are. *)
Lemma listener_bind_address (g : gmap string value) env argv s :
  listener (module (start g env argv)).2 = Some s →
  srv_host s = Some "0.0.0.0" ∧ srv_port s = None ∧
  bind_host s = "0.0.0.0" ∧ bind_port s = default_port ∧
  ∀ env' argv', listener (module (start g env' argv')).2 = Some s.
Proof.
  rewrite module_cases.
  destruct (g !! "_name_") as [v|] eqn:Hn; [destruct v|]; try done.
  cbn [snd]. destruct (String.eqb s0 "_main_") eqn:Hs; [|done].
  cbn [listener]. intros [= <-]. repeat split.
  intros env' argv'. by rewrite module_cases, Hn, Hs.
Qed.

Lemma listener_bind_address_witness :
  listener (module (start supplied_globals ∅ [])).2
    = Some (Server 0 (Some "0.0.0.0") None (Some true)) ∧
  srv_host (Server 0 (Some "0.0.0.0") None (Some true)) = Some "0.0.0.0" ∧
  srv_port (Server 0 (Some "0.0.0.0") None (Some true)) = None ∧
  bind_host (Server 0 (Some "0.0.0.0") None (Some true)) = "0.0.0.0" ∧
  bind_port (Server 0 (Some "0.0.0.0") None (Some true)) = default_port ∧
  ∀ env' argv',
    listener (module (start supplied_globals env' argv')).2
      = Some (Server 0 (Some "0.0.0.0") None (Some true)).
Proof.
  split; [vm_compute; reflexivity|].
  apply (listener_bind_address supplied_globals ∅ []).
  vm_compute; reflexivity.
Defined.

(** C10: [home] takes no argument and returns the same string on every
    call; any two requests that reach it (GET ['/']), in the same
    evaluation of the module or in different ones, whatever their headers,
    query strings and bodies, get byte-for-byte the same response body. *)
Theorem home_body_constant
    (g1 g2 : gmap string value) env1 env2 argv1 argv2 req1 req2 resp1 resp2 :
  respond (module (start g1 env1 argv1)).2 req1 = Some resp1 →
  respond (module (start g2 env2 argv2)).2 req2 = Some resp2 →
  method req1 = "GET" → path req1 = "/" →
  method req2 = "GET" → path req2 = "/" →
  body resp1 = body resp2 ∧ body resp1 = home () ∧
  ∀ u v : unit, home u = home v.
Proof.
  intros H1 H2 Hm1 Hp1 Hm2 Hp2.
  destruct (respond_evaluated _ _ _ _ _ H1) as (n1 & _ & ->).
  destruct (respond_evaluated _ _ _ _ _ H2) as (n2 & _ & ->).
  rewrite !dispatch_root_get by done. by repeat split.
Qed.

Lemma home_body_constant_witness :
  respond (module (start supplied_globals ∅ [])).2 get_root
    = Some (make_response (home ())) ∧
  respond (module (start supplied_import_globals
                     {["PORT" := "8080"]} ["app.py"; "--port"; "80"])).2
          get_root_extras
    = Some (make_response (home ())) ∧
  method get_root = "GET" ∧ path get_root = "/" ∧
  method get_root_extras = "GET" ∧ path get_root_extras = "/" ∧
  body (make_response (home ())) = body (make_response (home ())) ∧
  body (make_response (home ())) = home () ∧
  ∀ u v : unit, home u = home v.
Proof.
  split; [vm_compute; reflexivity|]. split; [vm_compute; reflexivity|].
  do 4 (split; [reflexivity|]).
  apply (home_body_constant supplied_globals supplied_import_globals
           ∅ {["PORT" := "8080"]} [] ["app.py"; "--port"; "80"]
           get_root get_root_extras
           (make_response (home ())) (make_response (home ())));
    first [vm_compute; reflexivity | reflexivity].
Defined.

(* ===================================================================== *)
(** ** Evaluation from an arbitrary state *)
(* ===================================================================== *)

(** The application store after line 2 allocated at the end of [l] and
    lines 3-15 registered [home] on the new object. *)
Lemma register_on_fresh (l : list flask_app) n :
  ((l ++ [Flask n]) !! length l = Some (Flask n) ∧
   <[length l := built_app n]> (l ++ [Flask n]) = l ++ [built_app n])%list.
Proof.
  split.
  - by apply list_lookup_middle.
  - replace (length l) with (length l + 0) at 1 by lia.
    by rewrite insert_app_r.
Qed.

(** Every evaluation of the module, from any interpreter state (a first
    evaluation, or a later one in a namespace and store that already hold
    objects), by what the namespace holds for [_name_]. *)
Lemma module_run (st : state) :
  module st =
    let g1 := <["Flask" := VClass "Flask"]> (globals st) in
    let addr := length (apps st) in
    let g3 := <["home" := VFunc "home" home]> (<["app" := VApp addr]> g1) in
    match globals st !! "_name_" with
    | None =>
        (Raised (NameError "_name_"),
         State g1 (apps st) (listener st) (os_environ st) (sys_argv st)
               (2 :: 1 :: lines st))
    | Some (VStr n) =>
        (Ok (),
         if String.eqb n "_main_" then
           State g3 (apps st ++ [built_app n])%list
                 (Some (Server addr (Some "0.0.0.0") None (Some true)))
                 (os_environ st) (sys_argv st)
                 (18 :: 17 :: 3 :: 2 :: 1 :: lines st)
         else
           State g3 (apps st ++ [built_app n])%list (listener st)
                 (os_environ st) (sys_argv st)
                 (17 :: 3 :: 2 :: 1 :: lines st))
    | Some _ =>
        (Raised (TypeError "import_name must be str"),
         State g1 (apps st) (listener st) (os_environ st) (sys_argv st)
               (2 :: 1 :: lines st))
    end.
Proof.
  destruct st as [g a l e v ls].
  unfold_py. cbv zeta.
  rewrite lookup_insert_eq.
  rewrite lookup_insert_ne by done.
  destruct (g !! "_name_") as [x|] eqn:Hn.
  - destruct x; try reflexivity.
    rewrite lookup_insert_eq.
    destruct (register_on_fresh a s) as [-> E].
    rewrite !lookup_insert_ne by done. rewrite Hn.
    unfold eq_str. destruct (String.eqb s "_main_").
    + rewrite lookup_insert_ne by done. rewrite lookup_insert_eq.
      fold (built_app s). by rewrite E.
    + fold (built_app s). by rewrite E.
  - rewrite builtins_name. reflexivity.
Qed.

(** The module never rebinds [_name_]. *)
Lemma module_keeps_name (st : state) :
  globals (module st).2 !! "_name_" = globals st !! "_name_".
Proof.
  rewrite module_run. cbv zeta.
  destruct (globals st !! "_name_") as [[]|] eqn:Hn; cbn [snd globals];
    try (by rewrite lookup_insert_ne by done).
  destruct (String.eqb s "_main_"); cbn [globals];
    by rewrite !lookup_insert_ne by done.
Qed.

(** After a completed evaluation the application bound to [app] is the one
    just built. *)
Lemma respond_after_module (st : state) n req :
  globals st !! "_name_" = Some (VStr n) →
  respond (module st).2 req = Some (dispatch (built_app n) req).
Proof.
  intros Hn. rewrite module_run. cbv zeta. rewrite Hn. cbn [snd].
  unfold respond.
  destruct (String.eqb n "_main_"); cbn [globals apps];
    rewrite lookup_insert_ne, lookup_insert_eq by done;
    by rewrite list_lookup_middle.
Qed.

(* ===================================================================== *)
(** ** Further properties of the module *)
(* ===================================================================== *)

(** X1: a first evaluation of the module starts a listener exactly when the
    initial namespace binds [_name_] to the string ['_main_']. *)
Theorem listener_started_iff (g : gmap string value) env argv :
  is_Some (listener (module (start g env argv)).2) ↔
  g !! "_name_" = Some (VStr "_main_").
Proof.
  rewrite module_cases.
  assert (∀ P : Prop, ¬ P → (is_Some (@None server) ↔ P)) as none_iff.
  { intros P HP. split; [intros [? ?]; discriminate | done]. }
  destruct (g !! "_name_") as [v|] eqn:Hn; [destruct v|]; cbn [snd listener];
    try (apply none_iff; discriminate).
  destruct (String.eqb s "_main_") eqn:Hs; cbn [listener].
  - apply String.eqb_eq in Hs as ->. split; [done | by eexists].
  - apply String.eqb_neq in Hs. apply none_iff. congruence.
Qed.

(** X2: from any state, the module raises [NameError] for a name [x]
    exactly when [x] is [_name_] and the namespace does not bind it; the
    other names it reads ([Flask], [app]) are always bound by the time they
    are read. *)
Theorem name_error_iff (st : state) x :
  (module st).1 = Raised (NameError x) ↔
  x = "_name_" ∧ globals st !! "_name_" = None.
Proof.
  rewrite module_run. cbv zeta.
  destruct (globals st !! "_name_") as [v|] eqn:Hn; [destruct v|];
    cbn [fst];
    (split; [intros H; try discriminate H | intros [Hx H]; try discriminate H]).
  - by injection H as <-.
  - by subst x.
Qed.

(** X3: from any state, the module binds no name other than [Flask], [app]
    and [home]: every other entry of the namespace is as it was, whether
    the evaluation completes or raises. *)
Theorem module_binds_three_names (st : state) k :
  k ≠ "Flask" → k ≠ "app" → k ≠ "home" →
  globals (module st).2 !! k = globals st !! k.
Proof.
  intros H1 H2 H3. rewrite module_run. cbv zeta.
  destruct (globals st !! "_name_") as [[]|] eqn:Hn; cbn [snd globals];
    try (by rewrite lookup_insert_ne by done).
  destruct (String.eqb s "_main_"); cbn [globals];
    by rewrite !lookup_insert_ne by done.
Qed.

Lemma module_binds_three_names_witness :
  "application" ≠ "Flask" ∧ "application" ≠ "app" ∧ "application" ≠ "home" ∧
  globals (module populated).2 !! "application"
    = globals populated !! "application".
Proof.
  assert ("application" ≠ "Flask") as H1 by discriminate.
  assert ("application" ≠ "app") as H2 by discriminate.
  assert ("application" ≠ "home") as H3 by discriminate.
  do 3 (split; [assumption|]).
  exact (module_binds_three_names populated "application" H1 H2 H3).
Defined.

(** X4: from any state, the module never modifies or removes an
    application object that already exists, even one [app] referred to
    beforehand; it adds at most one object, at the end of the store. *)
Theorem module_keeps_existing_apps (st : state) :
  apps st `prefix_of` apps (module st).2 ∧
  (length (apps (module st).2) ≤ S (length (apps st)))%nat.
Proof.
  rewrite module_run. cbv zeta.
  destruct (globals st !! "_name_") as [[]|] eqn:Hn; cbn [snd apps];
    try (split; [done | lia]).
  destruct (String.eqb s "_main_"); cbn [apps];
    (split; [by apply prefix_app_r | rewrite length_app; cbn; lia]).
Qed.

(** X5: when an evaluation completes, from any state, [_name_] was bound to
    a string [n]; [app] now refers to the object this evaluation allocated
    (not to an earlier one), whose import name is [n] and whose only rule is
    ['/'] with endpoint [home] mapped to the function [home]; and the name
    [home] is bound to that function. *)
Theorem completed_app_is_fresh (st : state) :
  (module st).1 = Ok () →
  ∃ n a,
    globals st !! "_name_" = Some (VStr n) ∧
    globals (module st).2 !! "app" = Some (VApp (length (apps st))) ∧
    apps (module st).2 !! length (apps st) = Some a ∧
    import_name a = n ∧
    rule <$> url_map a = ["/"] ∧ endpoint <$> url_map a = ["home"] ∧
    view_functions a !! "home" = Some home ∧
    globals (module st).2 !! "home" = Some (VFunc "home" home).
Proof.
  rewrite module_run. cbv zeta.
  destruct (globals st !! "_name_") as [[]|] eqn:Hn; try done.
  intros _. exists s, (built_app s). cbn [snd].
  destruct (String.eqb s "_main_"); cbn [globals apps];
    rewrite lookup_insert_ne, !lookup_insert_eq by done;
    rewrite list_lookup_middle by done;
    repeat split; apply built_app_view.
Qed.

Lemma completed_app_is_fresh_witness :
  (module populated).1 = Ok () ∧
  ∃ n a,
    globals populated !! "_name_" = Some (VStr n) ∧
    globals (module populated).2 !! "app"
      = Some (VApp (length (apps populated))) ∧
    apps (module populated).2 !! length (apps populated) = Some a ∧
    import_name a = n ∧
    rule <$> url_map a = ["/"] ∧ endpoint <$> url_map a = ["home"] ∧
    view_functions a !! "home" = Some home ∧
    globals (module populated).2 !! "home" = Some (VFunc "home" home).
Proof.
  assert ((module populated).1 = Ok ()) as H by (vm_compute; reflexivity).
  split; [exact H|]. exact (completed_app_is_fresh populated H).
Defined.

(** X6: whenever a first evaluation starts a listener, it runs with debug
    mode on and serves the application object [app] refers to, whose import
    name is ['_main_']. *)
Theorem listener_debug_and_target (g : gmap string value) env argv s :
  listener (module (start g env argv)).2 = Some s →
  srv_debug s = Some true ∧
  globals (module (start g env argv)).2 !! "app" = Some (VApp (srv_app s)) ∧
  ∃ a, apps (module (start g env argv)).2 !! srv_app s = Some a ∧
       import_name a = "_main_".
Proof.
  rewrite module_cases.
  destruct (g !! "_name_") as [[]|] eqn:Hn; try done.
  cbn [snd]. destruct (String.eqb s0 "_main_") eqn:Hs; [|done].
  apply String.eqb_eq in Hs as ->.
  cbn [listener globals apps]. intros [= <-]. cbn [srv_debug srv_app].
  split; [done|]. split.
  - unfold defined. by rewrite lookup_insert_ne, lookup_insert_eq by done.
  - by exists (built_app "_main_").
Qed.

Lemma listener_debug_and_target_witness :
  listener (module (start supplied_globals ∅ [])).2
    = Some (Server 0 (Some "0.0.0.0") None (Some true)) ∧
  srv_debug (Server 0 (Some "0.0.0.0") None (Some true)) = Some true ∧
  globals (module (start supplied_globals ∅ [])).2 !! "app"
    = Some (VApp (srv_app (Server 0 (Some "0.0.0.0") None (Some true)))) ∧
  ∃ a, apps (module (start supplied_globals ∅ [])).2
         !! srv_app (Server 0 (Some "0.0.0.0") None (Some true)) = Some a ∧
       import_name a = "_main_".
Proof.
  split; [vm_compute; reflexivity|].
  apply (listener_debug_and_target supplied_globals ∅ []).
  vm_compute; reflexivity.
Defined.

(** X7: the guard on lines 17-18, from any state in which [_name_] is bound
    to ['_main_'] and [app] refers to an application: line 18 is reached and
    a listener for that application is started with host ['0.0.0.0'], no
    port and debug on, replacing whatever listener the state recorded; the
    namespace and the store are unchanged. *)
Theorem main_guard_starts_server (st : state) addr :
  globals st !! "_name_" = Some (VStr "_main_") →
  globals st !! "app" = Some (VApp addr) →
  (main_guard st).1 = Ok () ∧
  listener (main_guard st).2
    = Some (Server addr (Some "0.0.0.0") None (Some true)) ∧
  lines (main_guard st).2 = 18 :: 17 :: lines st ∧
  globals (main_guard st).2 = globals st ∧
  apps (main_guard st).2 = apps st.
Proof.
  intros Hn Ha. destruct st as [g s l e v ls]. cbn in Hn, Ha.
  unfold_py. rewrite Hn. cbn [eq_str].
  change (String.eqb "_main_" "_main_") with true. cbv iota beta.
  by rewrite Ha.
Qed.

Lemma main_guard_starts_server_witness :
  globals before_guard_supplied !! "_name_" = Some (VStr "_main_") ∧
  globals before_guard_supplied !! "app" = Some (VApp 0) ∧
  (main_guard before_guard_supplied).1 = Ok () ∧
  listener (main_guard before_guard_supplied).2
    = Some (Server 0 (Some "0.0.0.0") None (Some true)) ∧
  lines (main_guard before_guard_supplied).2
    = 18 :: 17 :: lines before_guard_supplied ∧
  globals (main_guard before_guard_supplied).2
    = globals before_guard_supplied ∧
  apps (main_guard before_guard_supplied).2 = apps before_guard_supplied.
Proof.
  assert (globals before_guard_supplied !! "_name_" = Some (VStr "_main_"))
    as Hn by (vm_compute; reflexivity).
  assert (globals before_guard_supplied !! "app" = Some (VApp 0))
    as Ha by (vm_compute; reflexivity).
  split; [exact Hn|]. split; [exact Ha|].
  exact (main_guard_starts_server before_guard_supplied 0 Hn Ha).
Defined.

Lemma completed_name (st : state) :
  (module st).1 = Ok () ↔ ∃ n, globals st !! "_name_" = Some (VStr n).
Proof.
  rewrite module_run. cbv zeta.
  destruct (globals st !! "_name_") as [[]|] eqn:Hn; cbn [fst];
    (split; [intros H; try discriminate H | intros [? H]; try discriminate H]).
  - by eexists.
  - done.
Qed.

(** X10: evaluating the module again in the state a completed evaluation
    left behind (a reload) completes as well, and the application then
    bound to [app] answers every request exactly as the first one did. *)
Theorem reevaluation_same_responses (st : state) req :
  (module st).1 = Ok () →
  (module (module st).2).1 = Ok () ∧
  is_Some (respond (module st).2 req) ∧
  respond (module (module st).2).2 req = respond (module st).2 req.
Proof.
  intros [n Hn]%completed_name.
  assert (globals (module st).2 !! "_name_" = Some (VStr n)) as Hn'
    by (by rewrite module_keeps_name).
  split; [apply completed_name; by exists n|].
  rewrite (respond_after_module (module st).2 n) by done.
  rewrite (respond_after_module st n) by done.
  split; [by eexists | done].
Qed.

Lemma reevaluation_same_responses_witness :
  (module populated).1 = Ok () ∧
  (module (module populated).2).1 = Ok () ∧
  is_Some (respond (module populated).2 get_root) ∧
  respond (module (module populated).2).2 get_root
    = respond (module populated).2 get_root.
Proof.
  assert ((module populated).1 = Ok ()) as H by (vm_compute; reflexivity).
  split; [exact H|].
  exact (reevaluation_same_responses populated get_root H).
Defined.
